(** * Q15 saturating AXPY: kernel and benchmark harness

    A shallow embedding of [q15_axpy_challenge.c].  C integers are modelled
    as [Z] with the conversions to the fixed-width types written out, arrays
    as lists read with [!!] and written with [<[_:=_]>], and an access
    outside an array as the failure [None] of the option monad. *)

From Stdlib Require Import ZArith Lia SpecFloat.
From stdpp Require Import base option list.

Local Open Scope Z_scope.

(** ** Fixed-width integers *)

Module MachineInt.

(** Conversion to a signed type of [w] bits (two's complement). *)
Definition wrap_signed (w : Z) (v : Z) : Z :=
  (v + 2 ^ (w - 1)) mod 2 ^ w - 2 ^ (w - 1).

(** Conversion to an unsigned type of [w] bits. *)
Definition wrap_unsigned (w : Z) (v : Z) : Z := v mod 2 ^ w.

Definition to_int16 : Z -> Z := wrap_signed 16.
Definition to_int32 : Z -> Z := wrap_signed 32.
Definition to_uint32 : Z -> Z := wrap_unsigned 32.
Definition to_uint64 : Z -> Z := wrap_unsigned 64.

Definition in_int16 (v : Z) : Prop := -32768 <= v <= 32767.
Definition in_int32 (v : Z) : Prop := -2147483648 <= v <= 2147483647.

End MachineInt.
Import MachineInt.

(** ** The kernel *)

Definition Q15_MIN : Z := -32768.
Definition Q15_MAX : Z := 32767.

(** [saturate_q15]: the argument is an [int32_t], the result an [int16_t]. *)
Definition saturate_q15 (value : Z) : Z :=
  if decide (value > Q15_MAX) then Q15_MAX
  else if decide (value < Q15_MIN) then Q15_MIN
  else to_int16 value.

(** A write [y[i] = v]: defined only inside the array. *)
Definition store (y : list Z) (i : nat) (v : Z) : option (list Z) :=
  if decide (i < length y)%nat then Some (<[i := v]> y) else None.

(** The body of the loop of [q15_axpy_baseline], for the element read from
    [a[i]] and [b[i]]: the int32 product, its shift and the int32 sum. *)
Definition axpy_lane (a_i b_i alpha : Z) : Z :=
  let product := to_int32 (alpha * b_i) in
  let scaled := Z.shiftr product 15 in
  let sum := to_int32 (a_i + scaled) in
  saturate_q15 sum.

(** [for (i = 0; i < n; i++)], entered at index [i] with [todo = n - i]
    iterations left. *)
Fixpoint axpy_loop (a b : list Z) (alpha : Z) (todo i : nat) (y : list Z)
  : option (list Z) :=
  match todo with
  | O => Some y
  | S todo' =>
      b_i ← b !! i;
      a_i ← a !! i;
      y' ← store y i (axpy_lane a_i b_i alpha);
      axpy_loop a b alpha todo' (S i) y'
  end.

Definition q15_axpy_baseline (a b y : list Z) (n : nat) (alpha : Z)
  : option (list Z) :=
  axpy_loop a b alpha n 0 y.

Definition q15_axpy_vector (a b y : list Z) (n : nat) (alpha : Z)
  : option (list Z) :=
  q15_axpy_baseline a b y n alpha.

(** ** The harness *)

(** What the program writes to standard output, one constructor per
    [printf] (a group of consecutive constant lines counts as one). *)
Inductive stdout_line : Type :=
  | MsgMismatch (i : nat) (ref test : Z)
  | MsgAllocFailed
  | MsgBanner (test_size : nat) (alpha : Z)
  | MsgTableHeader
  | MsgBaselineRow (cycles : Z)
  | MsgVectorRow (cycles : Z) (speedup : spec_float)
  | MsgVerification (passed : bool).

Inductive kernel_id : Type := Baseline | Vector.

(** The observable steps of a run, in program order. *)
Inductive event : Type :=
  | Printf (l : stdout_line)
  | KernelCall (k : kernel_id).

(** The loop of [verify_identical], entered at index [i] with [todo]
    iterations left; the result pairs what was printed with the value
    returned. *)
Fixpoint verify_loop (ref test : list Z) (todo i : nat)
  : option (list stdout_line * Z) :=
  match todo with
  | O => Some ([], 1)
  | S todo' =>
      r ← ref !! i;
      t ← test !! i;
      if decide (r ≠ t) then Some ([MsgMismatch i r t], 0)
      else verify_loop ref test todo' (S i)
  end.

Definition verify_identical (ref test : list Z) (n : nat)
  : option (list stdout_line * Z) :=
  verify_loop ref test n 0.

(** The machine and C library the program runs on. *)
Record platform : Type := {
  (** whether the [k]-th call of [aligned_alloc] returns a buffer *)
  alloc_ok : nat -> bool;
  (** the indeterminate contents of the [k]-th buffer at index [i] *)
  alloc_contents : nat -> nat -> Z;
  (** the value of the [k]-th call of [rand] after [srand(42)] *)
  rand : nat -> Z;
  (** [Some c] on RV64, where the [k]-th [rdcycle] reads [c k]; [None]
      elsewhere *)
  cycle_csr : option (nat -> Z)
}.

(** [rdcycle64], at its [k]-th call. *)
Definition rdcycle64 (p : platform) (k : nat) : Z :=
  match cycle_csr p with
  | Some c => to_uint64 (c k)
  | None => 0
  end.

Definition test_size : nat := 4096.
Definition alpha : Z := 16384.

(** [aligned_alloc(64, test_size * sizeof(int16_t))], at its [k]-th call:
    [None] is the null pointer. *)
Definition fresh_buffer (p : platform) (k : nat) : list Z :=
  map (fun i => to_int16 (alloc_contents p k i)) (seq 0 test_size).

Definition aligned_alloc (p : platform) (k : nat) : option (list Z) :=
  if alloc_ok p k then Some (fresh_buffer p k) else None.

(** [(int16_t)((r % 65536u) - 32768)] for the [int] value [r] of [rand()]:
    the arithmetic is unsigned. *)
Definition q15_of_rand (r : Z) : Z :=
  to_int16 (to_uint32 (to_uint32 r mod 65536 - 32768)).

(** The initialisation loop of [main]. *)
Fixpoint init_loop (p : platform) (todo i : nat) (a b : list Z)
  : option (list Z * list Z) :=
  match todo with
  | O => Some (a, b)
  | S todo' =>
      a' ← store a i (q15_of_rand (rand p (2 * i)));
      b' ← store b i (q15_of_rand (rand p (2 * i + 1)));
      init_loop p todo' (S i) a' b'
  end.

(** Conversion of a [uint64_t] to [double] and the division of doubles
    (IEEE 754 binary64, round to nearest even). *)
Definition prec : Z := 53.
Definition emax : Z := 1024.

Definition double_of_uint64 (v : Z) : spec_float :=
  binary_normalize prec emax v 0 false.

Definition speedup (baseline_cycles vector_cycles : Z) : spec_float :=
  SFdiv prec emax (double_of_uint64 baseline_cycles)
                  (double_of_uint64 vector_cycles).

Definition exit_status (verified : Z) : Z :=
  if decide (verified ≠ 0) then 0 else 1.

(** [main] from the verification on: verification, results table, exit
    status. *)
Definition main_report (baseline_cycles vector_cycles : Z)
    (baseline_out vector_out : list Z) : option (list event * Z) :=
  '(report, verified) ← verify_identical baseline_out vector_out test_size;
  Some (map Printf report ++
        [Printf MsgTableHeader;
         Printf (MsgBaselineRow baseline_cycles);
         Printf (MsgVectorRow vector_cycles
                   (speedup baseline_cycles vector_cycles));
         Printf (MsgVerification (bool_decide (verified ≠ 0)))],
        exit_status verified).

Definition main (p : platform) : option (list event * Z) :=
  let a := aligned_alloc p 0 in
  let b := aligned_alloc p 1 in
  let baseline_out := aligned_alloc p 2 in
  let vector_out := aligned_alloc p 3 in
  match a, b, baseline_out, vector_out with
  | Some a, Some b, Some baseline_out, Some vector_out =>
      '(a, b) ← init_loop p test_size 0 a b;
      let start := rdcycle64 p 0 in
      baseline_out ← q15_axpy_baseline a b baseline_out test_size alpha;
      let baseline_cycles := to_uint64 (rdcycle64 p 1 - start) in
      let start := rdcycle64 p 2 in
      vector_out ← q15_axpy_vector a b vector_out test_size alpha;
      let vector_cycles := to_uint64 (rdcycle64 p 3 - start) in
      '(report, status) ← main_report baseline_cycles vector_cycles
                            baseline_out vector_out;
      Some ([Printf (MsgBanner test_size alpha); KernelCall Baseline;
             KernelCall Vector] ++ report, status)
  | _, _, _, _ => Some ([Printf MsgAllocFailed], 1)
  end.

(** ** Vocabulary of the statements about a run *)

(** All four calls of [aligned_alloc] return a buffer. *)
Definition all_allocated (p : platform) : bool :=
  alloc_ok p 0 && alloc_ok p 1 && alloc_ok p 2 && alloc_ok p 3.

(** A double that is a number: neither an infinity nor a NaN. *)
Definition is_finite (x : spec_float) : bool :=
  match x with
  | S754_zero _ | S754_finite _ _ _ => true
  | S754_infinity _ | S754_nan => false
  end.

(** A machine that is not RV64, where every allocation succeeds. *)
Definition host_without_counter : platform :=
  {| alloc_ok := fun _ => true;
     alloc_contents := fun _ _ => 0;
     rand := fun k => Z.of_nat k * 1103515245 + 12345;
     cycle_csr := None |}.

(** A machine on which the third allocation fails. *)
Definition host_out_of_memory : platform :=
  {| alloc_ok := fun k => negb (Nat.eqb k 2);
     alloc_contents := fun _ _ => 0;
     rand := fun k => Z.of_nat k;
     cycle_csr := Some (fun k => 1000 * Z.of_nat k) |}.

(** The speedup that a run on [p] prints is a number: what a guard around
    the division would ensure. *)
Definition speedup_division_guarded (p : platform) : Prop :=
  forall trace status cycles ratio,
    main p = Some (trace, status) ->
    In (Printf (MsgVectorRow cycles ratio)) trace ->
    is_finite ratio = true.

(** An RV64 machine where every allocation succeeds; the counter is near
    the end of its 64 bits and wraps during the second kernel. *)
Definition host_rv64 : platform :=
  {| alloc_ok := fun _ => true;
     alloc_contents := fun k i => Z.of_nat (k + i);
     rand := fun k => Z.of_nat k * 1103515245 + 12345;
     cycle_csr := Some (fun k => 18446744073709540000 + 5000 * Z.of_nat k) |}.

(** An RV64 machine where every allocation succeeds and the counter does
    not advance during the second kernel. *)
Definition host_stalled_counter : platform :=
  {| alloc_ok := fun _ => true;
     alloc_contents := fun _ _ => 0;
     rand := fun k => Z.of_nat k;
     cycle_csr := Some (fun k => if (k <? 2)%nat then 100 * Z.of_nat k
                                 else 500) |}.

(** * Properties of the conversions *)

Section Conversions.

Lemma to_int16_id v : in_int16 v -> to_int16 v = v.
Proof.
  unfold in_int16, to_int16, wrap_signed. intros Hv.
  change (2 ^ (16 - 1)) with 32768. change (2 ^ 16) with 65536.
  rewrite Z.mod_small; lia.
Qed.

Lemma to_int32_id v : in_int32 v -> to_int32 v = v.
Proof.
  unfold in_int32, to_int32, wrap_signed. intros Hv.
  change (2 ^ (32 - 1)) with 2147483648. change (2 ^ 32) with 4294967296.
  rewrite Z.mod_small; lia.
Qed.

Lemma to_int16_range v : in_int16 (to_int16 v).
Proof.
  unfold in_int16, to_int16, wrap_signed.
  change (2 ^ (16 - 1)) with 32768. change (2 ^ 16) with 65536.
  pose proof (Z.mod_pos_bound (v + 32768) 65536). lia.
Qed.

Lemma in_int16_int32 v : in_int16 v -> in_int32 v.
Proof. unfold in_int16, in_int32. lia. Qed.

End Conversions.

(** * Properties of the kernel *)

Section Kernel.

Lemma mbind_Some_l {A B : Type} (f : A -> option B) (x : A) :
  Some x ≫= f = f x.
Proof. reflexivity. Qed.

Lemma store_in_range (y : list Z) (i : nat) (v : Z) :
  (i < length y)%nat -> store y i v = Some (<[i := v]> y).
Proof. intros Hi. unfold store. case_decide; [done | lia]. Qed.

Lemma store_out_of_range (y : list Z) (i : nat) (v : Z) :
  (length y <= i)%nat -> store y i v = None.
Proof. intros Hi. unfold store. case_decide; [lia | done]. Qed.

(** The loop on arrays that are long enough: it returns, it writes the
    lane of every index it visits and leaves the other cells alone. *)
Lemma axpy_loop_spec (a b : list Z) (alpha : Z) (todo : nat) :
  forall (i : nat) (y : list Z),
    (i + todo <= length a)%nat ->
    (i + todo <= length b)%nat ->
    (i + todo <= length y)%nat ->
    exists y',
      axpy_loop a b alpha todo i y = Some y'
      /\ length y' = length y
      /\ (forall j a_j b_j, (i <= j < i + todo)%nat ->
            a !! j = Some a_j -> b !! j = Some b_j ->
            y' !! j = Some (axpy_lane a_j b_j alpha))
      /\ (forall j, (j < i \/ i + todo <= j)%nat -> y' !! j = y !! j).
Proof.
  induction todo as [|todo IH]; intros i y Ha Hb Hy.
  - exists y. split; [done|]. split; [done|].
    split; [intros; lia | done].
  - destruct (lookup_lt_is_Some_2 a i) as [a_i Hai]; [lia|].
    destruct (lookup_lt_is_Some_2 b i) as [b_i Hbi]; [lia|].
    destruct (IH (S i) (<[i := axpy_lane a_i b_i alpha]> y))
      as (y' & Hrun & Hlen & Hin & Hout);
      rewrite ?length_insert; try lia.
    exists y'. cbn [axpy_loop]. rewrite Hbi, Hai. cbn [mbind option_bind].
    rewrite store_in_range by lia. cbn [mbind option_bind].
    rewrite length_insert in Hlen.
    split; [exact Hrun|]. split; [exact Hlen|]. split.
    + intros j a_j b_j Hj Haj Hbj.
      destruct (decide (j = i)) as [->|Hne].
      * rewrite Hout by lia. rewrite list_lookup_insert_eq by lia.
        congruence.
      * apply Hin; [lia | done | done].
    + intros j Hj. rewrite Hout by lia.
      apply list_lookup_insert_ne. lia.
Qed.

(** What a call of the reference kernel on well-sized arrays returns. *)
Lemma q15_axpy_baseline_spec (a b y : list Z) (n : nat) (alpha : Z) :
  length a = n -> length b = n -> (n <= length y)%nat ->
  exists out,
    q15_axpy_baseline a b y n alpha = Some out
    /\ length out = length y
    /\ (forall i a_i b_i, (i < n)%nat ->
          a !! i = Some a_i -> b !! i = Some b_i ->
          out !! i = Some (axpy_lane a_i b_i alpha))
    /\ (forall i, (n <= i)%nat -> out !! i = y !! i).
Proof.
  intros Ha Hb Hy. unfold q15_axpy_baseline.
  destruct (axpy_loop_spec a b alpha n 0 y) as (out & Hrun & Hlen & Hin & Hout);
    try (simpl; lia).
  exists out. split; [done|]. split; [done|]. split.
  - intros i a_i b_i Hi. apply Hin. lia.
  - intros i Hi. apply Hout. lia.
Qed.

(** The cell at one index of the result. *)
Lemma q15_axpy_baseline_lookup (a b y : list Z) (n i : nat) (alpha a_i b_i : Z) :
  length a = n -> length b = n -> (n <= length y)%nat -> (i < n)%nat ->
  a !! i = Some a_i -> b !! i = Some b_i ->
  exists out,
    q15_axpy_baseline a b y n alpha = Some out
    /\ out !! i = Some (axpy_lane a_i b_i alpha).
Proof.
  intros Ha Hb Hy Hi Hai Hbi.
  destruct (q15_axpy_baseline_spec a b y n alpha Ha Hb Hy)
    as (out & Hrun & _ & Hin & _).
  exists out. split; [done|]. by apply Hin.
Qed.

(** The product of two [int16_t] values and the sum of the shifted product
    with a third fit an [int32_t]: the kernel never overflows. *)
Lemma axpy_lane_exact (a_i b_i alpha : Z) :
  in_int16 a_i -> in_int16 b_i -> in_int16 alpha ->
  axpy_lane a_i b_i alpha = saturate_q15 (a_i + (alpha * b_i) / 32768).
Proof.
  unfold in_int16, axpy_lane. intros Ha Hb Hal.
  assert (Hprod : -1073741824 < alpha * b_i <= 1073741824) by nia.
  rewrite (to_int32_id (alpha * b_i)) by (unfold in_int32; lia).
  rewrite Z.shiftr_div_pow2 by lia. change (2 ^ 15) with 32768.
  assert (-32768 <= alpha * b_i / 32768 <= 32768).
  { split.
    - apply Z.div_le_lower_bound; lia.
    - apply Z.div_le_upper_bound; lia. }
  rewrite to_int32_id by (unfold in_int32; lia).
  reflexivity.
Qed.

Lemma saturate_q15_in_range (value : Z) :
  in_int16 value -> saturate_q15 value = value.
Proof.
  unfold in_int16, saturate_q15, Q15_MAX, Q15_MIN. intros Hv.
  repeat case_decide; try lia. by apply to_int16_id.
Qed.

End Kernel.

(** * The claims about the kernel *)

(** C1. On valid input (arrays [a] and [b] of the same length [n], output
    buffers of capacity at least [n], whatever they held before), the
    optimized kernel [q15_axpy_vector] and the reference kernel
    [q15_axpy_baseline] both return, and the [n] output elements of the one
    are equal to those of the other. *)
Theorem q15_axpy_vector_equiv_baseline
    (a b y_ref y_opt : list Z) (n : nat) (alpha : Z) :
  length a = n -> length b = n ->
  (n <= length y_ref)%nat -> (n <= length y_opt)%nat ->
  exists out_ref out_opt,
    q15_axpy_baseline a b y_ref n alpha = Some out_ref
    /\ q15_axpy_vector a b y_opt n alpha = Some out_opt
    /\ (forall i, (i < n)%nat -> out_opt !! i = out_ref !! i)
    /\ take n out_opt = take n out_ref
    /\ (y_opt = y_ref -> out_opt = out_ref).
Proof.
  intros Ha Hb Hr Ho.
  destruct (q15_axpy_baseline_spec a b y_ref n alpha Ha Hb Hr)
    as (out_ref & Href & Hlr & Hin_r & _).
  destruct (q15_axpy_baseline_spec a b y_opt n alpha Ha Hb Ho)
    as (out_opt & Hopt & Hlo & Hin_o & _).
  assert (Hcells : forall i, (i < n)%nat -> out_opt !! i = out_ref !! i).
  { intros i Hi.
    destruct (lookup_lt_is_Some_2 a i) as [a_i Hai]; [lia|].
    destruct (lookup_lt_is_Some_2 b i) as [b_i Hbi]; [lia|].
    rewrite (Hin_r i a_i b_i), (Hin_o i a_i b_i); done. }
  exists out_ref, out_opt. unfold q15_axpy_vector.
  split; [done|]. split; [done|]. split; [done|]. split.
  - apply list_eq. intros i. rewrite !lookup_take.
    case_decide; [by apply Hcells | done].
  - intros ->. congruence.
Qed.

Lemma q15_axpy_vector_equiv_baseline_witness :
  exists out_ref out_opt,
    q15_axpy_baseline [100; -200] [32767; -32768] [0; 0; 7] 2 16384
      = Some out_ref
    /\ q15_axpy_vector [100; -200] [32767; -32768] [5; 5] 2 16384
      = Some out_opt
    /\ (forall i, (i < 2)%nat -> out_opt !! i = out_ref !! i)
    /\ take 2 out_opt = take 2 out_ref
    /\ ([5; 5] = [0; 0; 7] -> out_opt = out_ref).
Proof.
  apply (q15_axpy_vector_equiv_baseline
           [100; -200] [32767; -32768] [0; 0; 7] [5; 5] 2 16384);
    simpl; lia.
Defined.

(** C2. [saturate_q15] is defined on every [int32_t] value and returns an
    [int16_t]: 32767 above 32767, -32768 below -32768, and the value itself
    from -32768 to 32767. *)
Theorem saturate_q15_boundary (value : Z) :
  in_int32 value ->
  in_int16 (saturate_q15 value)
  /\ (value > 32767 -> saturate_q15 value = 32767)
  /\ (value < -32768 -> saturate_q15 value = -32768)
  /\ (-32768 <= value <= 32767 -> saturate_q15 value = value).
Proof.
  intros _. unfold saturate_q15, Q15_MAX, Q15_MIN.
  repeat case_decide.
  - unfold in_int16. repeat split; intros; lia.
  - unfold in_int16. repeat split; intros; lia.
  - assert (Hv : in_int16 value) by (unfold in_int16; lia).
    rewrite (to_int16_id _ Hv).
    split; [exact Hv|]. repeat split; intros; lia.
Qed.

Lemma saturate_q15_boundary_witness :
  in_int32 40000
  /\ in_int16 (saturate_q15 40000)
  /\ (40000 > 32767 -> saturate_q15 40000 = 32767)
  /\ (40000 < -32768 -> saturate_q15 40000 = -32768)
  /\ (-32768 <= 40000 <= 32767 -> saturate_q15 40000 = 40000).
Proof.
  assert (H : in_int32 40000) by (unfold in_int32; lia).
  split; [exact H | apply (saturate_q15_boundary 40000 H)].
Defined.

(** C3. Where [a[i] = 0] and [b[i] = 1], the kernel called with
    [alpha = -32768] writes [y[i] = -1]: the product is -32768, its shift
    right by 15 is arithmetic and gives -1 (the floor of -32768 / 32768 is
    -1 too, and a logical shift would give 131071), the sum is -1 and
    [saturate_q15 (-1) = -1]. *)
Theorem q15_axpy_negative_shift (a b y : list Z) (n i : nat) :
  length a = n -> length b = n -> (n <= length y)%nat -> (i < n)%nat ->
  a !! i = Some 0 -> b !! i = Some 1 ->
  exists out,
    q15_axpy_baseline a b y n (-32768) = Some out
    /\ out !! i = Some (-1)
    /\ to_int32 (-32768 * 1) = -32768
    /\ Z.shiftr (-32768) 15 = -1
    /\ to_int32 (0 + -1) = -1
    /\ saturate_q15 (-1) = -1
    /\ Z.shiftr (to_uint32 (-32768)) 15 = 131071.
Proof.
  intros Ha Hb Hy Hi Hai Hbi.
  destruct (q15_axpy_baseline_lookup a b y n i (-32768) 0 1
              Ha Hb Hy Hi Hai Hbi) as (out & Hrun & Hcell).
  exists out. split; [done|]. split; [exact Hcell|].
  repeat split; reflexivity.
Qed.

Lemma q15_axpy_negative_shift_witness :
  exists out,
    q15_axpy_baseline [5; 0] [9; 1] [0; 0] 2 (-32768) = Some out
    /\ out !! 1%nat = Some (-1).
Proof.
  destruct (q15_axpy_negative_shift [5; 0] [9; 1] [0; 0] 2 1)
    as (out & Hrun & Hcell & _); try reflexivity; try (simpl; lia).
  exists out. split; assumption.
Defined.

(** C6. Where [a[i] = 0] and [b[i] = 32767], the kernel called with
    [alpha = 16384] writes the floor of 16384 * 32767 / 32768, which is
    16383: the exact product 536854528 shifted right by 15, added to 0 and
    saturated. *)
Theorem q15_axpy_half_scale (a b y : list Z) (n i : nat) :
  length a = n -> length b = n -> (n <= length y)%nat -> (i < n)%nat ->
  a !! i = Some 0 -> b !! i = Some 32767 ->
  exists out,
    q15_axpy_baseline a b y n 16384 = Some out
    /\ out !! i = Some (16384 * 32767 / 32768)
    /\ out !! i = Some (saturate_q15 (0 + Z.shiftr (16384 * 32767) 15))
    /\ 16384 * 32767 / 32768 = 16383.
Proof.
  intros Ha Hb Hy Hi Hai Hbi.
  destruct (q15_axpy_baseline_lookup a b y n i 16384 0 32767
              Ha Hb Hy Hi Hai Hbi) as (out & Hrun & Hcell).
  exists out. split; [done|]. repeat split; exact Hcell.
Qed.

Lemma q15_axpy_half_scale_witness :
  exists out,
    q15_axpy_baseline [0] [32767] [12] 1 16384 = Some out
    /\ out !! 0%nat = Some 16383.
Proof.
  destruct (q15_axpy_half_scale [0] [32767] [12] 1 0)
    as (out & Hrun & Hcell & _); try reflexivity; try (simpl; lia).
  exists out. split; assumption.
Defined.

(** C7. Where [a[i] = 32767] and [b[i] = 32767], the kernel called with
    [alpha = 32767] adds the shifted product 32766 to [a[i]], the sum 65533
    is above 32767, and the kernel writes exactly 32767. *)
Theorem q15_axpy_saturates_high (a b y : list Z) (n i : nat) :
  length a = n -> length b = n -> (n <= length y)%nat -> (i < n)%nat ->
  a !! i = Some 32767 -> b !! i = Some 32767 ->
  exists out,
    q15_axpy_baseline a b y n 32767 = Some out
    /\ out !! i = Some 32767
    /\ Z.shiftr (to_int32 (32767 * 32767)) 15 = 32766
    /\ to_int32 (32767 + Z.shiftr (to_int32 (32767 * 32767)) 15) = 65533
    /\ 65533 > Q15_MAX
    /\ saturate_q15 65533 = 32767.
Proof.
  intros Ha Hb Hy Hi Hai Hbi.
  destruct (q15_axpy_baseline_lookup a b y n i 32767 32767 32767
              Ha Hb Hy Hi Hai Hbi) as (out & Hrun & Hcell).
  exists out. split; [done|]. split; [exact Hcell|].
  repeat split; reflexivity.
Qed.

Lemma q15_axpy_saturates_high_witness :
  exists out,
    q15_axpy_baseline [32767; 1] [32767; 2] [0; 0] 2 32767 = Some out
    /\ out !! 0%nat = Some 32767.
Proof.
  destruct (q15_axpy_saturates_high [32767; 1] [32767; 2] [0; 0] 2 0)
    as (out & Hrun & Hcell & _); try reflexivity; try (simpl; lia).
  exists out. split; assumption.
Defined.

(** C8. Identity scaling: on arrays [a] and [b] of [int16_t] of the same
    length [n], the kernel called with [alpha = 0] writes [y[i] = a[i]] for
    every [i] below [n]. *)
Theorem q15_axpy_alpha_zero (a b y : list Z) (n : nat) :
  length a = n -> length b = n -> (n <= length y)%nat ->
  Forall in_int16 a ->
  exists out,
    q15_axpy_baseline a b y n 0 = Some out
    /\ (forall i, (i < n)%nat -> out !! i = a !! i)
    /\ take n out = a.
Proof.
  intros Ha Hb Hy Hrange.
  destruct (q15_axpy_baseline_spec a b y n 0 Ha Hb Hy)
    as (out & Hrun & Hlen & Hin & _).
  assert (Hcells : forall i, (i < n)%nat -> out !! i = a !! i).
  { intros i Hi.
    destruct (lookup_lt_is_Some_2 a i) as [a_i Hai]; [lia|].
    destruct (lookup_lt_is_Some_2 b i) as [b_i Hbi]; [lia|].
    rewrite (Hin i a_i b_i Hi Hai Hbi), Hai. f_equal.
    assert (Hr : in_int16 a_i).
    { rewrite Forall_forall in Hrange. apply Hrange.
      apply list_elem_of_lookup. eauto. }
    unfold axpy_lane. rewrite Z.mul_0_l.
    change (Z.shiftr (to_int32 0) 15) with 0. rewrite Z.add_0_r.
    rewrite to_int32_id by (by apply in_int16_int32).
    by apply saturate_q15_in_range. }
  exists out. split; [done|]. split; [done|].
  apply list_eq. intros i. rewrite lookup_take.
  case_decide as Hi; [by apply Hcells|].
  symmetry. apply lookup_ge_None. lia.
Qed.

Lemma q15_axpy_alpha_zero_witness :
  exists out,
    q15_axpy_baseline [-32768; 32767; 17] [9; -32768; 32767] [1; 2; 3; 4] 3 0
      = Some out
    /\ take 3 out = [-32768; 32767; 17].
Proof.
  destruct (q15_axpy_alpha_zero
              [-32768; 32767; 17] [9; -32768; 32767] [1; 2; 3; 4] 3)
    as (out & Hrun & _ & Htake); try reflexivity; try (simpl; lia).
  - repeat constructor; unfold in_int16; lia.
  - exists out. split; assumption.
Defined.

(** C9. Per-element independence: in two calls of the kernel on valid
    arrays with the same [alpha], whose inputs agree at an index [i] both
    calls cover, the outputs agree at [i], whatever the other elements of
    [a] and [b], the lengths and the previous contents of the output
    buffers are: [y[i]] is the function [axpy_lane] of [a[i]], [b[i]] and
    [alpha]. *)
Theorem q15_axpy_element_independent
    (a1 b1 y1 a2 b2 y2 : list Z) (n1 n2 i : nat) (alpha a_i b_i : Z) :
  length a1 = n1 -> length b1 = n1 -> (n1 <= length y1)%nat ->
  length a2 = n2 -> length b2 = n2 -> (n2 <= length y2)%nat ->
  (i < n1)%nat -> (i < n2)%nat ->
  a1 !! i = Some a_i -> a2 !! i = Some a_i ->
  b1 !! i = Some b_i -> b2 !! i = Some b_i ->
  exists out1 out2,
    q15_axpy_baseline a1 b1 y1 n1 alpha = Some out1
    /\ q15_axpy_baseline a2 b2 y2 n2 alpha = Some out2
    /\ out1 !! i = out2 !! i
    /\ out1 !! i = Some (axpy_lane a_i b_i alpha).
Proof.
  intros Ha1 Hb1 Hy1 Ha2 Hb2 Hy2 Hi1 Hi2 Hai1 Hai2 Hbi1 Hbi2.
  destruct (q15_axpy_baseline_lookup a1 b1 y1 n1 i alpha a_i b_i)
    as (out1 & Hrun1 & Hcell1); try done.
  destruct (q15_axpy_baseline_lookup a2 b2 y2 n2 i alpha a_i b_i)
    as (out2 & Hrun2 & Hcell2); try done.
  exists out1, out2. split; [done|]. split; [done|].
  split; congruence.
Qed.

Lemma q15_axpy_element_independent_witness :
  exists out1 out2,
    q15_axpy_baseline [1; 2; 3] [4; 5; 6] [0; 0; 0] 3 16384 = Some out1
    /\ q15_axpy_baseline [9; 2] [-7; 5] [8; 8; 8; 8] 2 16384 = Some out2
    /\ out1 !! 1%nat = out2 !! 1%nat
    /\ out1 !! 1%nat = Some (axpy_lane 2 5 16384).
Proof.
  apply (q15_axpy_element_independent
           [1; 2; 3] [4; 5; 6] [0; 0; 0] [9; 2] [-7; 5] [8; 8; 8; 8]
           3 2 1 16384 2 5);
    try reflexivity; simpl; lia.
Defined.

(** * Properties of the harness *)

Section Verification.

Variables ref test : list Z.

(** The outcome of the comparison loop on arrays that are long enough:
    either every visited pair is equal, nothing is printed and the result
    is 1, or the loop stops at the first unequal pair, prints it and
    returns 0 without reading any later cell. *)
Lemma verify_loop_spec (todo : nat) :
  forall i : nat,
    (i + todo <= length ref)%nat -> (i + todo <= length test)%nat ->
    ((forall j, (i <= j < i + todo)%nat -> ref !! j = test !! j)
     /\ verify_loop ref test todo i = Some ([], 1))
    \/ (exists k r t,
          (i <= k < i + todo)%nat
          /\ ref !! k = Some r /\ test !! k = Some t /\ r <> t
          /\ (forall j, (i <= j < k)%nat -> ref !! j = test !! j)
          /\ verify_loop ref test todo i = Some ([MsgMismatch k r t], 0)
          /\ verify_loop (take (S k) ref) (take (S k) test) todo i
             = Some ([MsgMismatch k r t], 0)).
Proof.
  induction todo as [|todo IH]; intros i Hr Ht.
  - left. split; [intros; lia | done].
  - destruct (lookup_lt_is_Some_2 ref i) as [r Hri]; [lia|].
    destruct (lookup_lt_is_Some_2 test i) as [t Hti]; [lia|].
    destruct (decide (r = t)) as [->|Hne].
    + destruct (IH (S i)) as [[Hall Hrun] | (k & r & t' & Hk & Hrk & Htk
                                             & Hne & Hbefore & Hrun & Hcut)];
        try lia.
      * left. split.
        -- intros j Hj. destruct (decide (j = i)) as [->|]; [congruence|].
           apply Hall. lia.
        -- cbn [verify_loop]. rewrite Hri, Hti. cbn [mbind option_bind].
           case_decide; [done | exact Hrun].
      * right. exists k, r, t'. split; [lia|].
        split; [done|]. split; [done|]. split; [done|]. split; [|split].
        -- intros j Hj. destruct (decide (j = i)) as [->|]; [congruence|].
           apply Hbefore. lia.
        -- cbn [verify_loop]. rewrite Hri, Hti. cbn [mbind option_bind].
           case_decide; [done | exact Hrun].
        -- cbn [verify_loop]. rewrite !lookup_take_lt by lia.
           rewrite Hri, Hti. cbn [mbind option_bind].
           case_decide; [done | exact Hcut].
    + right. exists i, r, t. split; [lia|].
      split; [done|]. split; [done|]. split; [done|]. split; [|split].
      * intros j Hj. lia.
      * cbn [verify_loop]. rewrite Hri, Hti. cbn [mbind option_bind].
        case_decide; [done | congruence].
      * cbn [verify_loop]. rewrite !lookup_take_lt by lia.
        rewrite Hri, Hti. cbn [mbind option_bind].
        case_decide; [done | congruence].
Qed.

End Verification.

(** C10. On two arrays of at least [n] elements [verify_identical] returns
    1 or 0, and 1 exactly when the first [n] elements of the one are equal
    to those of the other.  When it returns 1 it prints nothing; when it
    returns 0 it has printed one line, the index of the first unequal pair
    and both values, and it has read no cell after that pair. *)
Theorem verify_identical_iff_all_match (ref test : list Z) (n : nat) :
  (n <= length ref)%nat -> (n <= length test)%nat ->
  exists report result,
    verify_identical ref test n = Some (report, result)
    /\ (result = 1 \/ result = 0)
    /\ (result = 1 <-> forall i, (i < n)%nat -> ref !! i = test !! i)
    /\ (result = 1 -> report = [])
    /\ (result = 0 ->
        exists k r t,
          (k < n)%nat
          /\ ref !! k = Some r /\ test !! k = Some t /\ r <> t
          /\ (forall j, (j < k)%nat -> ref !! j = test !! j)
          /\ report = [MsgMismatch k r t]
          /\ verify_identical (take (S k) ref) (take (S k) test) n
             = Some (report, 0)).
Proof.
  intros Hr Ht. unfold verify_identical.
  destruct (verify_loop_spec ref test n 0)
    as [[Hall Hrun] | (k & r & t & Hk & Hrk & Htk & Hne & Hbefore
                       & Hrun & Hcut)]; try (simpl; lia).
  - exists [], 1. split; [done|]. split; [by left|]. split; [|split].
    + split; [|done]. intros _ i Hi. apply Hall. lia.
    + done.
    + intros Hfalse. discriminate Hfalse.
  - exists [MsgMismatch k r t], 0. split; [done|]. split; [by right|].
    split; [|split].
    + split; [intros Hfalse; discriminate Hfalse|].
      intros Hall. exfalso. apply Hne.
      specialize (Hall k ltac:(lia)). congruence.
    + intros Hfalse. discriminate Hfalse.
    + intros _. exists k, r, t. split; [lia|].
      split; [done|]. split; [done|]. split; [done|]. split; [|done].
      intros j Hj. apply Hbefore. lia.
Qed.

Lemma verify_identical_iff_all_match_witness :
  exists report result,
    verify_identical [1; 2; 3; 4] [1; 2; -3; 5] 4 = Some (report, result)
    /\ (result = 1 <->
        forall i, (i < 4)%nat ->
          [1; 2; 3; 4] !! i = ([1; 2; -3; 5] : list Z) !! i).
Proof.
  destruct (verify_identical_iff_all_match [1; 2; 3; 4] [1; 2; -3; 5] 4)
    as (report & result & Hrun & _ & Hiff & _); try (simpl; lia).
  exists report, result. split; assumption.
Defined.

Example verify_identical_first_mismatch :
  verify_identical [1; 2; 3; 4] [1; 2; -3; 5] 4
  = Some ([MsgMismatch 2 3 (-3)], 0).
Proof. reflexivity. Qed.

Section Run.

Variable p : platform.

Lemma fresh_buffer_length (k : nat) : length (fresh_buffer p k) = test_size.
Proof. unfold fresh_buffer. by rewrite length_map, length_seq. Qed.

Lemma aligned_alloc_Some (k : nat) :
  alloc_ok p k = true -> aligned_alloc p k = Some (fresh_buffer p k).
Proof. intros Hk. unfold aligned_alloc. by rewrite Hk. Qed.

(** The initialisation loop stays inside buffers that are long enough. *)
Lemma init_loop_spec (todo : nat) :
  forall (i : nat) (a b : list Z),
    (i + todo <= length a)%nat -> (i + todo <= length b)%nat ->
    exists a' b',
      init_loop p todo i a b = Some (a', b')
      /\ length a' = length a /\ length b' = length b.
Proof.
  induction todo as [|todo IH]; intros i a b Ha Hb.
  - exists a, b. done.
  - cbn [init_loop]. rewrite !store_in_range by lia.
    cbn [mbind option_bind].
    destruct (IH (S i) (<[i := q15_of_rand (rand p (2 * i))]> a)
                (<[i := q15_of_rand (rand p (2 * i + 1))]> b))
      as (a' & b' & Hrun & Hla & Hlb); rewrite ?length_insert; try lia.
    rewrite length_insert in Hla, Hlb. by exists a', b'.
Qed.

(** The end of [main] on output buffers that are long enough: it returns,
    the status is 0 when every pair of elements is equal and 1 when some
    pair is not, and the row of the optimized kernel carries the quotient
    of the two cycle counts. *)
Lemma main_report_spec (baseline_cycles vector_cycles : Z)
    (baseline_out vector_out : list Z) :
  (test_size <= length baseline_out)%nat ->
  (test_size <= length vector_out)%nat ->
  exists report status,
    main_report baseline_cycles vector_cycles baseline_out vector_out
      = Some (report, status)
    /\ (status = 0 <->
        forall i, (i < test_size)%nat -> baseline_out !! i = vector_out !! i)
    /\ (status = 0 \/ status = 1)
    /\ In (Printf (MsgVectorRow vector_cycles
                     (speedup baseline_cycles vector_cycles))) report
    /\ (forall k, ~ In (KernelCall k) report).
Proof.
  intros Hb Hv. unfold main_report, verify_identical.
  destruct (verify_loop_spec baseline_out vector_out test_size 0)
    as [[Hall Hrun] | (k & r & t & Hk & Hrk & Htk & Hne & _ & Hrun & _)];
    try lia; rewrite Hrun; cbn [mbind option_bind].
  - eexists _, _. split; [reflexivity|]. split; [|split; [|split]].
    + split; [|done]. intros _ i Hi. apply Hall. lia.
    + by left.
    + cbn. tauto.
    + intros k' Hin. cbn in Hin. intuition discriminate.
  - eexists _, _. split; [reflexivity|]. split; [|split; [|split]].
    + split; [intros Hfalse; discriminate Hfalse|].
      intros Hall. exfalso. apply Hne.
      specialize (Hall k ltac:(lia)). congruence.
    + by right.
    + cbn. tauto.
    + intros k' Hin. cbn in Hin. intuition discriminate.
Qed.

(** A run in which an allocation fails. *)
Lemma main_allocation_failed :
  all_allocated p = false -> main p = Some ([Printf MsgAllocFailed], 1).
Proof.
  unfold all_allocated, main, aligned_alloc. intros Hfail.
  destruct (alloc_ok p 0); [|done]. destruct (alloc_ok p 1); [|done].
  destruct (alloc_ok p 2); [|done]. destruct (alloc_ok p 3); [|done].
  discriminate Hfail.
Qed.

(** A run in which every allocation succeeds: no access leaves a buffer,
    both kernels run on the generated inputs and their outputs go to the
    end of [main]. *)
Lemma main_allocated :
  all_allocated p = true ->
  exists a b baseline_out vector_out report status,
    init_loop p test_size 0 (fresh_buffer p 0) (fresh_buffer p 1)
      = Some (a, b)
    /\ q15_axpy_baseline a b (fresh_buffer p 2) test_size alpha
       = Some baseline_out
    /\ q15_axpy_vector a b (fresh_buffer p 3) test_size alpha
       = Some vector_out
    /\ length baseline_out = test_size /\ length vector_out = test_size
    /\ (forall i, (i < test_size)%nat ->
          baseline_out !! i = vector_out !! i)
    /\ main_report (to_uint64 (rdcycle64 p 1 - rdcycle64 p 0))
         (to_uint64 (rdcycle64 p 3 - rdcycle64 p 2)) baseline_out vector_out
       = Some (report, status)
    /\ main p = Some ([Printf (MsgBanner test_size alpha);
                       KernelCall Baseline; KernelCall Vector] ++ report,
                      status).
Proof.
  unfold all_allocated. intros Hok.
  apply andb_prop in Hok as [Hok H3]. apply andb_prop in Hok as [Hok H2].
  apply andb_prop in Hok as [H0 H1].
  destruct (init_loop_spec test_size 0 (fresh_buffer p 0) (fresh_buffer p 1))
    as (a & b & Hinit & Hla & Hlb);
    rewrite ?fresh_buffer_length; try lia.
  rewrite fresh_buffer_length in Hla, Hlb.
  assert (Hcap : forall k, (test_size <= length (fresh_buffer p k))%nat)
    by (intros k; rewrite fresh_buffer_length; lia).
  destruct (q15_axpy_baseline_spec a b (fresh_buffer p 2) test_size alpha
              Hla Hlb (Hcap 2%nat))
    as (baseline_out & Hbase & Hlbo & Hin_b & _).
  destruct (q15_axpy_baseline_spec a b (fresh_buffer p 3) test_size alpha
              Hla Hlb (Hcap 3%nat))
    as (vector_out & Hvec & Hlvo & Hin_v & _).
  rewrite fresh_buffer_length in Hlbo, Hlvo.
  destruct (main_report_spec (to_uint64 (rdcycle64 p 1 - rdcycle64 p 0))
              (to_uint64 (rdcycle64 p 3 - rdcycle64 p 2))
              baseline_out vector_out)
    as (report & status & Hreport & _); try lia.
  exists a, b, baseline_out, vector_out, report, status.
  split; [exact Hinit|]. split; [exact Hbase|]. split; [exact Hvec|].
  split; [exact Hlbo|]. split; [exact Hlvo|].
  split; [|split; [exact Hreport|]].
  - intros i Hi.
    destruct (lookup_lt_is_Some_2 a i) as [a_i Hai]; [lia|].
    destruct (lookup_lt_is_Some_2 b i) as [b_i Hbi]; [lia|].
    rewrite (Hin_b i a_i b_i Hi Hai Hbi), (Hin_v i a_i b_i Hi Hai Hbi).
    reflexivity.
  - unfold main. rewrite !aligned_alloc_Some by assumption.
    rewrite Hinit, mbind_Some_l. cbv beta iota.
    rewrite Hbase, mbind_Some_l.
    unfold q15_axpy_vector. rewrite Hvec, mbind_Some_l.
    rewrite Hreport, mbind_Some_l. reflexivity.
Qed.

End Run.

(** Dividing by the double 0 never gives a number. *)
Lemma speedup_zero_divisor (baseline_cycles : Z) :
  is_finite (speedup baseline_cycles 0) = false.
Proof.
  unfold speedup. change (double_of_uint64 0) with (S754_zero false).
  by destruct (double_of_uint64 baseline_cycles).
Qed.

Lemma rdcycle64_unavailable (p : platform) (k : nat) :
  cycle_csr p = None -> rdcycle64 p k = 0.
Proof. intros Hnone. unfold rdcycle64. by rewrite Hnone. Qed.

(** A run without cycle counter in which every allocation succeeds: both
    counts are 0 and the row of the optimized kernel carries 0 / 0. *)
Lemma main_without_counter (p : platform) :
  cycle_csr p = None -> all_allocated p = true ->
  exists trace,
    main p = Some (trace, 0)
    /\ In (Printf (MsgVectorRow 0 (speedup 0 0))) trace.
Proof.
  intros Hnone Hok.
  destruct (main_allocated p Hok)
    as (a & b & baseline_out & vector_out & report & status & _ & _ & _
        & Hlb & Hlv & Hsame & Hreport & Hmain).
  rewrite !(rdcycle64_unavailable p _ Hnone) in Hreport.
  change (to_uint64 (0 - 0)) with 0 in Hreport.
  destruct (main_report_spec 0 0 baseline_out vector_out)
    as (report' & status' & Hreport' & Hstatus & _ & Hrow & _); try lia.
  rewrite Hreport in Hreport'. injection Hreport' as <- <-.
  apply Hstatus in Hsame. subst status.
  eexists. split; [exact Hmain|].
  apply in_or_app. by right.
Qed.

(** * The claims about the harness *)

(** C4, as the code has it.  The speedup is the quotient of the two cycle
    counts as doubles, computed with no guard.  Without cycle counter, in a
    run in which every allocation succeeds, both counts are 0, the ratio
    printed is 0 / 0, which is a NaN and not a number, and the exit status
    is 0 all the same. *)
Theorem speedup_division_unguarded (p : platform) :
  cycle_csr p = None -> all_allocated p = true ->
  exists trace,
    main p = Some (trace, 0)
    /\ In (Printf (MsgVectorRow 0 (speedup 0 0))) trace
    /\ speedup 0 0 = S754_nan
    /\ is_finite (speedup 0 0) = false.
Proof.
  intros Hnone Hok.
  destruct (main_without_counter p Hnone Hok) as (trace & Hmain & Hrow).
  exists trace. split; [exact Hmain|]. split; [exact Hrow|].
  split; reflexivity.
Qed.

Lemma speedup_division_unguarded_witness :
  exists trace,
    main host_without_counter = Some (trace, 0)
    /\ In (Printf (MsgVectorRow 0 S754_nan)) trace.
Proof.
  destruct (speedup_division_unguarded host_without_counter)
    as (trace & Hmain & Hrow & _); try reflexivity.
  exists trace. split; [exact Hmain | exact Hrow].
Defined.

(** C4, as the specification has it, fails: on a machine without cycle
    counter the ratio printed is not a number. *)
Lemma speedup_division_guarded_counterexample :
  cycle_csr host_without_counter = None
  /\ ~ speedup_division_guarded host_without_counter.
Proof.
  split; [reflexivity|]. intros Hguard.
  destruct (main_without_counter host_without_counter)
    as (trace & Hmain & Hrow); try reflexivity.
  specialize (Hguard trace 0 0 (speedup 0 0) Hmain Hrow).
  discriminate Hguard.
Qed.

(** C5. [main] returns 0 or 1.  It returns 0 exactly when every element
    of the output of the optimized kernel was found equal to that of the
    reference kernel.  When one of the four allocations fails it returns 1
    after printing the failure, before any call of a kernel.  The end of
    [main], whatever the two outputs it is given, returns 0 when every pair
    of elements is equal and 1 otherwise. *)
Theorem main_exit_status (p : platform) :
  exists trace status,
    main p = Some (trace, status)
    /\ (status = 0 \/ status = 1)
    /\ (all_allocated p = false ->
        status = 1
        /\ trace = [Printf MsgAllocFailed]
        /\ forall k, ~ In (KernelCall k) trace)
    /\ (all_allocated p = true ->
        exists a b baseline_out vector_out,
          init_loop p test_size 0 (fresh_buffer p 0) (fresh_buffer p 1)
            = Some (a, b)
          /\ q15_axpy_baseline a b (fresh_buffer p 2) test_size alpha
             = Some baseline_out
          /\ q15_axpy_vector a b (fresh_buffer p 3) test_size alpha
             = Some vector_out
          /\ In (KernelCall Baseline) trace /\ In (KernelCall Vector) trace
          /\ (status = 0 <->
              forall i, (i < test_size)%nat ->
                baseline_out !! i = vector_out !! i))
    /\ (forall baseline_cycles vector_cycles baseline_out vector_out,
          (test_size <= length baseline_out)%nat ->
          (test_size <= length vector_out)%nat ->
          exists report verdict,
            main_report baseline_cycles vector_cycles baseline_out vector_out
              = Some (report, verdict)
            /\ (verdict = 0 <->
                forall i, (i < test_size)%nat ->
                  baseline_out !! i = vector_out !! i)
            /\ (verdict = 0 \/ verdict = 1)).
Proof.
  assert (Hend : forall baseline_cycles vector_cycles baseline_out vector_out,
             (test_size <= length baseline_out)%nat ->
             (test_size <= length vector_out)%nat ->
             exists report verdict,
               main_report baseline_cycles vector_cycles
                 baseline_out vector_out = Some (report, verdict)
               /\ (verdict = 0 <->
                   forall i, (i < test_size)%nat ->
                     baseline_out !! i = vector_out !! i)
               /\ (verdict = 0 \/ verdict = 1)).
  { intros bc vc bo vo Hb Hv.
    destruct (main_report_spec bc vc bo vo Hb Hv)
      as (report & verdict & Hrun & Hiff & Hbit & _).
    by exists report, verdict. }
  destruct (all_allocated p) eqn:Hok.
  - destruct (main_allocated p Hok)
      as (a & b & baseline_out & vector_out & report & status & Hinit
          & Hbase & Hvec & Hlb & Hlv & Hsame & Hreport & Hmain).
    destruct (Hend (to_uint64 (rdcycle64 p 1 - rdcycle64 p 0))
                (to_uint64 (rdcycle64 p 3 - rdcycle64 p 2))
                baseline_out vector_out)
      as (report' & status' & Hreport' & Hiff & Hbit); try lia.
    rewrite Hreport in Hreport'. injection Hreport' as <- <-.
    eexists _, status. split; [exact Hmain|]. split; [exact Hbit|].
    split; [intros Hfalse; discriminate Hfalse|]. split; [|exact Hend].
    intros _. exists a, b, baseline_out, vector_out.
    split; [exact Hinit|]. split; [exact Hbase|]. split; [exact Hvec|].
    split; [cbn; tauto|]. split; [cbn; tauto | exact Hiff].
  - exists [Printf MsgAllocFailed], 1.
    split; [by apply main_allocation_failed|]. split; [by right|].
    split; [|split; [intros Hfalse; discriminate Hfalse | exact Hend]].
    intros _. split; [done|]. split; [done|].
    intros k [Hin | []]. discriminate Hin.
Qed.

Lemma main_exit_status_witness :
  main host_out_of_memory = Some ([Printf MsgAllocFailed], 1).
Proof.
  destruct (main_exit_status host_out_of_memory)
    as (trace & status & Hmain & _ & Hfail & _).
  destruct (Hfail eq_refl) as (-> & -> & _). exact Hmain.
Defined.

(** * Further properties of the kernel *)

Section KernelMore.

Lemma saturate_q15_range (value : Z) : in_int16 (saturate_q15 value).
Proof.
  unfold saturate_q15, Q15_MAX, Q15_MIN.
  repeat case_decide; try (unfold in_int16; lia). apply to_int16_range.
Qed.

(** A loop that returns has stayed inside the three arrays. *)
Lemma axpy_loop_in_bounds (a b : list Z) (alpha : Z) (todo : nat) :
  forall (i : nat) (y : list Z),
    is_Some (axpy_loop a b alpha todo i y) ->
    (0 < todo)%nat ->
    (i + todo <= length a)%nat /\ (i + todo <= length b)%nat
    /\ (i + todo <= length y)%nat.
Proof.
  induction todo as [|todo IH]; intros i y Hrun Hpos; [lia|].
  cbn [axpy_loop] in Hrun.
  destruct (b !! i) as [b_i|] eqn:Hbi; [|by destruct Hrun].
  destruct (a !! i) as [a_i|] eqn:Hai; [|by destruct Hrun].
  cbn [mbind option_bind] in Hrun. unfold store in Hrun.
  case_decide as Hi; [|by destruct Hrun].
  cbn [mbind option_bind] in Hrun.
  apply lookup_lt_Some in Hai, Hbi.
  destruct todo as [|todo']; [lia|].
  destruct (IH (S i) _ Hrun) as (Ha & Hb & Hy); [lia|].
  rewrite length_insert in Hy. lia.
Qed.

End KernelMore.

(** X1. On arrays [a] and [b] of length [n] and a buffer [y] of at least
    [n] cells, the kernel returns the buffer whose first [n] cells are the
    lanes of the pairs of [a] and [b], in order, and whose other cells are
    those of [y]: the result does not depend on the first [n] cells of
    [y]. *)
Theorem q15_axpy_baseline_zip_with (a b y : list Z) (n : nat) (alpha : Z) :
  length a = n -> length b = n -> (n <= length y)%nat ->
  q15_axpy_baseline a b y n alpha
  = Some (zip_with (fun a_i b_i => axpy_lane a_i b_i alpha) a b ++ drop n y).
Proof.
  intros Ha Hb Hy.
  destruct (q15_axpy_baseline_spec a b y n alpha Ha Hb Hy)
    as (out & Hrun & Hlen & Hin & Hout).
  rewrite Hrun. f_equal. apply list_eq. intros i.
  assert (Hzip : length (zip_with (fun a_i b_i => axpy_lane a_i b_i alpha)
                           a b) = n)
    by (rewrite length_zip_with; lia).
  destruct (decide (i < n)%nat) as [Hi|Hi].
  - rewrite lookup_app_l by lia. rewrite lookup_zip_with.
    destruct (lookup_lt_is_Some_2 a i) as [a_i Hai]; [lia|].
    destruct (lookup_lt_is_Some_2 b i) as [b_i Hbi]; [lia|].
    rewrite Hai, Hbi. cbn [mbind option_bind]. by apply Hin.
  - rewrite lookup_app_r by lia. rewrite lookup_drop, Hzip.
    rewrite Hout by lia. f_equal. lia.
Qed.

Lemma q15_axpy_baseline_zip_with_witness :
  q15_axpy_baseline [100; -200] [32767; -32768] [7; 8; 9] 2 16384
  = Some [16483; -16584; 9].
Proof.
  apply (q15_axpy_baseline_zip_with [100; -200] [32767; -32768] [7; 8; 9]
           2 16384); simpl; lia.
Defined.

(** X2. A call of the kernel stays inside its three arrays exactly when
    [n] is at most the length of each of them; otherwise it reads or
    writes past the end of one. *)
Theorem q15_axpy_baseline_in_bounds_iff
    (a b y : list Z) (n : nat) (alpha : Z) :
  is_Some (q15_axpy_baseline a b y n alpha)
  <-> (n <= length a)%nat /\ (n <= length b)%nat /\ (n <= length y)%nat.
Proof.
  unfold q15_axpy_baseline. split.
  - intros Hrun. destruct n as [|n]; [lia|].
    destruct (axpy_loop_in_bounds a b alpha (S n) 0 y Hrun) as (? & ? & ?);
      lia.
  - intros (Ha & Hb & Hy).
    destruct (axpy_loop_spec a b alpha n 0 y) as (out & Hrun & _);
      try (simpl; lia).
    rewrite Hrun. by eexists.
Qed.

(** X3. The kernel writes only [int16_t] values: whatever the inputs, each
    of the [n] cells it has written is between -32768 and 32767. *)
Theorem q15_axpy_baseline_output_range
    (a b y : list Z) (n : nat) (alpha : Z) :
  length a = n -> length b = n -> (n <= length y)%nat ->
  exists out,
    q15_axpy_baseline a b y n alpha = Some out
    /\ length out = length y
    /\ Forall in_int16 (take n out).
Proof.
  intros Ha Hb Hy.
  destruct (q15_axpy_baseline_spec a b y n alpha Ha Hb Hy)
    as (out & Hrun & Hlen & Hin & _).
  exists out. split; [done|]. split; [done|].
  apply Forall_lookup. intros i v Hv.
  rewrite lookup_take in Hv. case_decide as Hi; [|done].
  destruct (lookup_lt_is_Some_2 a i) as [a_i Hai]; [lia|].
  destruct (lookup_lt_is_Some_2 b i) as [b_i Hbi]; [lia|].
  rewrite (Hin i a_i b_i Hi Hai Hbi) in Hv. injection Hv as <-.
  apply saturate_q15_range.
Qed.

Lemma q15_axpy_baseline_output_range_witness :
  exists out,
    q15_axpy_baseline [32767; -32768] [32767; 32767] [0; 0] 2 32767 = Some out
    /\ length out = 2%nat
    /\ Forall in_int16 (take 2 out).
Proof.
  apply (q15_axpy_baseline_output_range [32767; -32768] [32767; 32767]
           [0; 0] 2 32767); simpl; lia.
Defined.

(** X4. On [int16_t] operands nothing overflows: the product fits an
    [int32_t], the sum of [a[i]] and the shifted product lies between
    -65535 and 65535, and the lane is the saturation of [a[i]] plus the
    floor of [alpha * b[i] / 32768]. *)
Theorem axpy_lane_no_overflow (a_i b_i alpha : Z) :
  in_int16 a_i -> in_int16 b_i -> in_int16 alpha ->
  to_int32 (alpha * b_i) = alpha * b_i
  /\ -65535 <= a_i + Z.shiftr (alpha * b_i) 15 <= 65535
  /\ axpy_lane a_i b_i alpha = saturate_q15 (a_i + alpha * b_i / 32768).
Proof.
  intros Ha Hb Hal. split; [|split].
  - apply to_int32_id. unfold in_int16, in_int32 in *. nia.
  - rewrite Z.shiftr_div_pow2 by lia. change (2 ^ 15) with 32768.
    unfold in_int16 in *.
    assert (-1073709056 <= alpha * b_i <= 1073741824) by nia.
    assert (-32767 <= alpha * b_i / 32768).
    { apply Z.div_le_lower_bound; lia. }
    assert (alpha * b_i / 32768 <= 32768).
    { apply Z.div_le_upper_bound; lia. }
    lia.
  - by apply axpy_lane_exact.
Qed.

Lemma axpy_lane_no_overflow_witness :
  to_int32 (-32768 * -32768) = -32768 * -32768
  /\ -65535 <= 32767 + Z.shiftr (-32768 * -32768) 15 <= 65535
  /\ axpy_lane 32767 (-32768) (-32768)
     = saturate_q15 (32767 + -32768 * -32768 / 32768).
Proof.
  apply (axpy_lane_no_overflow 32767 (-32768) (-32768));
    unfold in_int16; lia.
Defined.

(** X5. The kernel rounds the scaled product toward minus infinity: on
    [int16_t] operands, when the result [y] is not saturated, 32768 times
    [y - a[i]] is at most [alpha * b[i]] and misses it by less than 32768,
    also when the product is negative. *)
Theorem axpy_lane_rounds_down (a_i b_i alpha : Z) :
  in_int16 a_i -> in_int16 b_i -> in_int16 alpha ->
  in_int16 (a_i + alpha * b_i / 32768) ->
  32768 * (axpy_lane a_i b_i alpha - a_i) <= alpha * b_i
  /\ alpha * b_i < 32768 * (axpy_lane a_i b_i alpha - a_i) + 32768.
Proof.
  intros Ha Hb Hal Hfit.
  rewrite axpy_lane_exact by done. rewrite saturate_q15_in_range by done.
  replace (a_i + alpha * b_i / 32768 - a_i) with (alpha * b_i / 32768)
    by lia.
  pose proof (Z.mul_div_le (alpha * b_i) 32768 ltac:(lia)).
  pose proof (Z.mul_succ_div_gt (alpha * b_i) 32768 ltac:(lia)).
  lia.
Qed.

Lemma axpy_lane_rounds_down_witness :
  32768 * (axpy_lane 10 1 (-1) - 10) <= -1 * 1
  /\ -1 * 1 < 32768 * (axpy_lane 10 1 (-1) - 10) + 32768.
Proof.
  apply (axpy_lane_rounds_down 10 1 (-1)); unfold in_int16;
    change (-1 * 1 / 32768) with (-1); lia.
Defined.

(** X6. [saturate_q15] is monotone, and it leaves its own results alone. *)
Theorem saturate_q15_monotone (v w : Z) :
  v <= w ->
  saturate_q15 v <= saturate_q15 w
  /\ saturate_q15 (saturate_q15 v) = saturate_q15 v.
Proof.
  intros Hle. split.
  - unfold saturate_q15, Q15_MAX, Q15_MIN.
    repeat case_decide; try lia;
      rewrite ?to_int16_id by (unfold in_int16; lia); lia.
  - apply saturate_q15_in_range, saturate_q15_range.
Qed.

Lemma saturate_q15_monotone_witness :
  saturate_q15 (-40000) <= saturate_q15 123
  /\ saturate_q15 (saturate_q15 (-40000)) = saturate_q15 (-40000).
Proof. apply (saturate_q15_monotone (-40000) 123). lia. Defined.

(** X7. With a scale [alpha] that is not negative the lane is monotone in
    both operands: on [int16_t] values, raising [a[i]] or [b[i]] never
    lowers [y[i]]. *)
Theorem axpy_lane_monotone (a_i a_i' b_i b_i' alpha : Z) :
  in_int16 a_i -> in_int16 a_i' -> in_int16 b_i -> in_int16 b_i' ->
  in_int16 alpha -> 0 <= alpha ->
  a_i <= a_i' -> b_i <= b_i' ->
  axpy_lane a_i b_i alpha <= axpy_lane a_i' b_i' alpha.
Proof.
  intros Ha Ha' Hb Hb' Hal Hpos Hle_a Hle_b.
  rewrite !axpy_lane_exact by done.
  assert (Hdiv : alpha * b_i / 32768 <= alpha * b_i' / 32768).
  { apply Z.div_le_mono; [lia|]. by apply Z.mul_le_mono_nonneg_l. }
  unfold saturate_q15, Q15_MAX, Q15_MIN.
  repeat case_decide; try lia;
    rewrite ?to_int16_id by (unfold in_int16; lia); lia.
Qed.

Lemma axpy_lane_monotone_witness :
  axpy_lane (-5) (-32768) 16384 <= axpy_lane 7 32767 16384.
Proof.
  apply (axpy_lane_monotone (-5) 7 (-32768) 32767 16384);
    unfold in_int16; lia.
Defined.

(** * Further properties of the harness *)

Section Inputs.

Lemma q15_of_rand_range (r : Z) : in_int16 (q15_of_rand r).
Proof. unfold q15_of_rand. apply to_int16_range. Qed.

Variable p : platform.

(** The initialisation loop on buffers that are long enough: the cells it
    visits receive the values drawn for them, the others are left alone. *)
Lemma init_loop_cells (todo : nat) :
  forall (i : nat) (a b : list Z),
    (i + todo <= length a)%nat -> (i + todo <= length b)%nat ->
    exists a' b',
      init_loop p todo i a b = Some (a', b')
      /\ length a' = length a /\ length b' = length b
      /\ (forall j, (i <= j < i + todo)%nat ->
            a' !! j = Some (q15_of_rand (rand p (2 * j)))
            /\ b' !! j = Some (q15_of_rand (rand p (2 * j + 1))))
      /\ (forall j, (j < i \/ i + todo <= j)%nat ->
            a' !! j = a !! j /\ b' !! j = b !! j).
Proof.
  induction todo as [|todo IH]; intros i a b Ha Hb.
  - exists a, b. split; [done|]. split; [done|]. split; [done|].
    split; [intros; lia | done].
  - cbn [init_loop]. rewrite !store_in_range by lia.
    cbn [mbind option_bind].
    destruct (IH (S i) (<[i := q15_of_rand (rand p (2 * i))]> a)
                (<[i := q15_of_rand (rand p (2 * i + 1))]> b))
      as (a' & b' & Hrun & Hla & Hlb & Hin & Hout);
      rewrite ?length_insert; try lia.
    rewrite length_insert in Hla, Hlb.
    exists a', b'. split; [exact Hrun|]. split; [exact Hla|].
    split; [exact Hlb|]. split.
    + intros j Hj. destruct (decide (j = i)) as [->|Hne].
      * destruct (Hout i) as [-> ->]; [lia|].
        rewrite !list_lookup_insert_eq by lia. done.
      * apply Hin. lia.
    + intros j Hj. destruct (Hout j) as [-> ->]; [lia|].
      rewrite !list_lookup_insert_ne by lia. done.
Qed.

End Inputs.

(** X8. For a value [r] that [rand] can return (an [int] that is not
    negative), the element generated is [r mod 65536 - 32768], an
    [int16_t]; below 32768 it is [r - 32768], which is negative, so where
    [RAND_MAX] is 32767 no generated element is positive or zero. *)
Theorem q15_of_rand_low_bits (r : Z) :
  0 <= r <= 2147483647 ->
  q15_of_rand r = r mod 65536 - 32768
  /\ in_int16 (q15_of_rand r)
  /\ (r <= 32767 -> q15_of_rand r = r - 32768 /\ q15_of_rand r < 0).
Proof.
  intros Hr.
  assert (Hlow : q15_of_rand r = r mod 65536 - 32768).
  { unfold q15_of_rand, to_int16, to_uint32, wrap_signed, wrap_unsigned.
    change (2 ^ 32) with 4294967296. change (2 ^ (16 - 1)) with 32768.
    change (2 ^ 16) with 65536.
    Z.div_mod_to_equations. lia. }
  split; [exact Hlow|]. split; [apply q15_of_rand_range|].
  intros Hsmall. rewrite Hlow. rewrite Z.mod_small by lia. lia.
Qed.

Lemma q15_of_rand_low_bits_witness :
  q15_of_rand 1804289383 = 1804289383 mod 65536 - 32768
  /\ in_int16 (q15_of_rand 1804289383)
  /\ (1804289383 <= 32767 ->
      q15_of_rand 1804289383 = 1804289383 - 32768
      /\ q15_of_rand 1804289383 < 0).
Proof. apply (q15_of_rand_low_bits 1804289383). lia. Defined.

(** X9. The initialisation loop, run for [n] elements on two buffers of at
    least [n] cells, stays inside them; [a[i]] is generated from the call
    of [rand] number [2 * i] and [b[i]] from the call number [2 * i + 1],
    the cells from [n] on keep what they held, and every generated element
    is an [int16_t]. *)
Theorem init_loop_generates (p : platform) (n : nat) (a0 b0 : list Z) :
  (n <= length a0)%nat -> (n <= length b0)%nat ->
  exists a b,
    init_loop p n 0 a0 b0 = Some (a, b)
    /\ length a = length a0 /\ length b = length b0
    /\ (forall i, (i < n)%nat ->
          a !! i = Some (q15_of_rand (rand p (2 * i)))
          /\ b !! i = Some (q15_of_rand (rand p (2 * i + 1))))
    /\ (forall i, (n <= i)%nat -> a !! i = a0 !! i /\ b !! i = b0 !! i)
    /\ Forall in_int16 (take n a) /\ Forall in_int16 (take n b).
Proof.
  intros Ha Hb.
  destruct (init_loop_cells p n 0 a0 b0)
    as (a & b & Hrun & Hla & Hlb & Hin & Hout); try (simpl; lia).
  exists a, b. split; [exact Hrun|]. split; [exact Hla|].
  split; [exact Hlb|]. split; [intros i Hi; apply Hin; lia|].
  split; [intros i Hi; apply Hout; lia|].
  split; apply Forall_lookup; intros i v Hv; rewrite lookup_take in Hv;
    case_decide as Hi; try done;
    destruct (Hin i) as [Hai Hbi]; try lia;
    rewrite ?Hai, ?Hbi in Hv; injection Hv as <-; apply q15_of_rand_range.
Qed.

Lemma init_loop_generates_witness :
  exists a b,
    init_loop host_rv64 2 0 [5; 6; 7] [8; 9] = Some (a, b)
    /\ a !! 2%nat = Some 7
    /\ b !! 1%nat = Some (q15_of_rand (rand host_rv64 3)).
Proof.
  destruct (init_loop_generates host_rv64 2 [5; 6; 7] [8; 9])
    as (a & b & Hrun & _ & _ & Hin & Hout & _); try (simpl; lia).
  exists a, b. split; [exact Hrun|]. split.
  - apply (Hout 2%nat). lia.
  - apply (Hin 1%nat). lia.
Defined.

Section VerificationMore.

(** The comparison loop on arrays whose visited pairs are all equal. *)
Lemma verify_loop_all_match (ref test : list Z) (todo i : nat) :
  (i + todo <= length ref)%nat -> (i + todo <= length test)%nat ->
  (forall j, (i <= j < i + todo)%nat -> ref !! j = test !! j) ->
  verify_loop ref test todo i = Some ([], 1).
Proof.
  intros Hr Ht Hall.
  destruct (verify_loop_spec ref test todo i Hr Ht)
    as [[_ Hrun] | (k & r & t & Hk & Hrk & Htk & Hne & _)]; [exact Hrun|].
  exfalso. apply Hne. specialize (Hall k Hk). congruence.
Qed.

(** Exchanging the two arrays does not change what the loop returns. *)
Lemma verify_loop_swap (ref test : list Z) (todo : nat) :
  forall i : nat,
    snd <$> verify_loop ref test todo i = snd <$> verify_loop test ref todo i.
Proof.
  induction todo as [|todo IH]; intros i; [done|].
  cbn [verify_loop].
  destruct (ref !! i) as [r|], (test !! i) as [t|];
    cbn [mbind option_bind]; try done.
  repeat case_decide; done || congruence.
Qed.

(** The end of [main] on outputs that are equal element by element. *)
Lemma main_report_all_match (baseline_cycles vector_cycles : Z)
    (baseline_out vector_out : list Z) :
  (test_size <= length baseline_out)%nat ->
  (test_size <= length vector_out)%nat ->
  (forall i, (i < test_size)%nat -> baseline_out !! i = vector_out !! i) ->
  main_report baseline_cycles vector_cycles baseline_out vector_out
  = Some ([Printf MsgTableHeader;
           Printf (MsgBaselineRow baseline_cycles);
           Printf (MsgVectorRow vector_cycles
                     (speedup baseline_cycles vector_cycles));
           Printf (MsgVerification true)], 0).
Proof.
  intros Hb Hv Hall. unfold main_report, verify_identical.
  rewrite (verify_loop_all_match baseline_out vector_out test_size 0)
    by (lia || (intros j Hj; apply Hall; lia)).
  rewrite mbind_Some_l. reflexivity.
Qed.

(** What a run prints and returns when every allocation succeeds. *)
Lemma main_allocated_outcome (p : platform) :
  all_allocated p = true ->
  main p
  = Some ([Printf (MsgBanner test_size alpha);
           KernelCall Baseline; KernelCall Vector;
           Printf MsgTableHeader;
           Printf (MsgBaselineRow
                     (to_uint64 (rdcycle64 p 1 - rdcycle64 p 0)));
           Printf (MsgVectorRow
                     (to_uint64 (rdcycle64 p 3 - rdcycle64 p 2))
                     (speedup (to_uint64 (rdcycle64 p 1 - rdcycle64 p 0))
                        (to_uint64 (rdcycle64 p 3 - rdcycle64 p 2))));
           Printf (MsgVerification true)], 0).
Proof.
  intros Hok.
  destruct (main_allocated p Hok)
    as (a & b & baseline_out & vector_out & report & status & _ & _ & _
        & Hlb & Hlv & Hsame & Hreport & Hmain).
  rewrite main_report_all_match in Hreport by (lia || exact Hsame).
  injection Hreport as <- <-. exact Hmain.
Qed.

(** The difference of two readings of a 64-bit counter, taken modulo
    2^64, is the number of cycles between them, also when the counter has
    wrapped in between. *)
Lemma elapsed_cycles (t0 t1 : Z) :
  0 <= t1 - t0 < 2 ^ 64 ->
  to_uint64 (to_uint64 t1 - to_uint64 t0) = t1 - t0.
Proof.
  intros Hd. unfold to_uint64, wrap_unsigned.
  rewrite <- Zminus_mod. by apply Z.mod_small.
Qed.

End VerificationMore.

(** X10. An array compared with itself passes: on an array of at least [n]
    elements [verify_identical] returns 1 and prints nothing. *)
Theorem verify_identical_refl (x : list Z) (n : nat) :
  (n <= length x)%nat -> verify_identical x x n = Some ([], 1).
Proof.
  intros Hn. unfold verify_identical.
  apply verify_loop_all_match; [simpl; lia | simpl; lia | done].
Qed.

Lemma verify_identical_refl_witness :
  verify_identical [3; -4; 5] [3; -4; 5] 2 = Some ([], 1).
Proof. apply (verify_identical_refl [3; -4; 5] 2). simpl. lia. Defined.

(** X11. The value [verify_identical] returns does not depend on which of
    the two arrays is passed first, whatever their lengths. *)
Theorem verify_identical_swap (ref test : list Z) (n : nat) :
  snd <$> verify_identical ref test n = snd <$> verify_identical test ref n.
Proof. unfold verify_identical. apply verify_loop_swap. Qed.

(** X12. The check of the harness passes on the two kernels: on valid
    input, whatever the two output buffers held before, [verify_identical]
    applied to the output of [q15_axpy_baseline] and that of
    [q15_axpy_vector] returns 1 and prints nothing. *)
Theorem verify_identical_kernels
    (a b y_ref y_opt : list Z) (n : nat) (alpha : Z) :
  length a = n -> length b = n ->
  (n <= length y_ref)%nat -> (n <= length y_opt)%nat ->
  exists out_ref out_opt,
    q15_axpy_baseline a b y_ref n alpha = Some out_ref
    /\ q15_axpy_vector a b y_opt n alpha = Some out_opt
    /\ verify_identical out_ref out_opt n = Some ([], 1).
Proof.
  intros Ha Hb Hr Ho.
  destruct (q15_axpy_baseline_spec a b y_ref n alpha Ha Hb Hr)
    as (out_ref & Href & Hlr & Hin_r & _).
  destruct (q15_axpy_baseline_spec a b y_opt n alpha Ha Hb Ho)
    as (out_opt & Hopt & Hlo & Hin_o & _).
  exists out_ref, out_opt. unfold q15_axpy_vector.
  split; [exact Href|]. split; [exact Hopt|].
  unfold verify_identical. apply verify_loop_all_match; try (simpl; lia).
  intros i Hi.
  destruct (lookup_lt_is_Some_2 a i) as [a_i Hai]; [lia|].
  destruct (lookup_lt_is_Some_2 b i) as [b_i Hbi]; [lia|].
  rewrite (Hin_r i a_i b_i), (Hin_o i a_i b_i); done || lia.
Qed.

Lemma verify_identical_kernels_witness :
  exists out_ref out_opt,
    q15_axpy_baseline [1; 2] [3; 4] [0; 0] 2 16384 = Some out_ref
    /\ q15_axpy_vector [1; 2] [3; 4] [9; 9; 9] 2 16384 = Some out_opt
    /\ verify_identical out_ref out_opt 2 = Some ([], 1).
Proof.
  apply (verify_identical_kernels [1; 2] [3; 4] [0; 0] [9; 9; 9] 2 16384);
    simpl; lia.
Defined.

(** X13. The end of [main], on two outputs of at least [test_size]
    elements, prints the results table in both cases.  Either every pair
    of elements is equal, the last line says that the verification passed
    and the status is 0; or the first line reports the first unequal pair,
    the last line says that the verification failed and the status is
    1. *)
Theorem main_report_outcome (baseline_cycles vector_cycles : Z)
    (baseline_out vector_out : list Z) :
  (test_size <= length baseline_out)%nat ->
  (test_size <= length vector_out)%nat ->
  ((forall i, (i < test_size)%nat -> baseline_out !! i = vector_out !! i)
   /\ main_report baseline_cycles vector_cycles baseline_out vector_out
      = Some ([Printf MsgTableHeader;
               Printf (MsgBaselineRow baseline_cycles);
               Printf (MsgVectorRow vector_cycles
                         (speedup baseline_cycles vector_cycles));
               Printf (MsgVerification true)], 0))
  \/ (exists k r t,
        (k < test_size)%nat
        /\ baseline_out !! k = Some r /\ vector_out !! k = Some t
        /\ r <> t
        /\ (forall j, (j < k)%nat -> baseline_out !! j = vector_out !! j)
        /\ main_report baseline_cycles vector_cycles baseline_out vector_out
           = Some ([Printf (MsgMismatch k r t);
                    Printf MsgTableHeader;
                    Printf (MsgBaselineRow baseline_cycles);
                    Printf (MsgVectorRow vector_cycles
                              (speedup baseline_cycles vector_cycles));
                    Printf (MsgVerification false)], 1)).
Proof.
  intros Hb Hv.
  destruct (verify_loop_spec baseline_out vector_out test_size 0)
    as [[Hall Hrun] | (k & r & t & Hk & Hrk & Htk & Hne & Hbefore
                       & Hrun & _)]; try lia.
  - left. split; [intros i Hi; apply Hall; lia|].
    unfold main_report, verify_identical.
    rewrite Hrun, mbind_Some_l. reflexivity.
  - right. exists k, r, t. split; [lia|].
    split; [exact Hrk|]. split; [exact Htk|]. split; [exact Hne|].
    split; [intros j Hj; apply Hbefore; lia|].
    unfold main_report, verify_identical.
    rewrite Hrun, mbind_Some_l. reflexivity.
Qed.

Lemma main_report_outcome_witness :
  exists k r t,
    main_report 10 4 (replicate test_size 1)
      (<[7%nat := 2]> (replicate test_size 1))
    = Some ([Printf (MsgMismatch k r t);
             Printf MsgTableHeader;
             Printf (MsgBaselineRow 10);
             Printf (MsgVectorRow 4 (speedup 10 4));
             Printf (MsgVerification false)], 1).
Proof.
  destruct (main_report_outcome 10 4 (replicate test_size 1)
              (<[7%nat := 2]> (replicate test_size 1)))
    as [[Hall _] | (k & r & t & _ & _ & _ & _ & _ & Hrun)];
    rewrite ?length_insert, ?length_replicate; try lia.
  - specialize (Hall 7%nat ltac:(unfold test_size; lia)).
    vm_compute in Hall. discriminate Hall.
  - exists k, r, t. exact Hrun.
Defined.

(** X14. What a run does.  When the four allocations succeed [main] stays
    inside its buffers, calls the reference kernel and then the optimized
    one, prints the banner, the table with the two cycle counts and their
    quotient, and that the verification passed, with no report of a
    mismatch, and returns 0; when one of them fails it prints the failure
    and returns 1.  So the status is 0 exactly when the allocations
    succeed. *)
Theorem main_outcome (p : platform) :
  main p
  = if all_allocated p
    then Some ([Printf (MsgBanner test_size alpha);
                KernelCall Baseline; KernelCall Vector;
                Printf MsgTableHeader;
                Printf (MsgBaselineRow
                          (to_uint64 (rdcycle64 p 1 - rdcycle64 p 0)));
                Printf (MsgVectorRow
                          (to_uint64 (rdcycle64 p 3 - rdcycle64 p 2))
                          (speedup
                             (to_uint64 (rdcycle64 p 1 - rdcycle64 p 0))
                             (to_uint64 (rdcycle64 p 3 - rdcycle64 p 2))));
                Printf (MsgVerification true)], 0)
    else Some ([Printf MsgAllocFailed], 1).
Proof.
  destruct (all_allocated p) eqn:Hok.
  - by apply main_allocated_outcome.
  - by apply main_allocation_failed.
Qed.

(** X15. On RV64 the two counts printed are the numbers of cycles between
    the readings that bracket each kernel, provided each is below 2^64,
    also when the 64-bit counter wraps around between two readings. *)
Theorem main_cycle_counts (p : platform) (c : nat -> Z) :
  all_allocated p = true -> cycle_csr p = Some c ->
  0 <= c 1%nat - c 0%nat < 2 ^ 64 ->
  0 <= c 3%nat - c 2%nat < 2 ^ 64 ->
  exists trace,
    main p = Some (trace, 0)
    /\ In (Printf (MsgBaselineRow (c 1%nat - c 0%nat))) trace
    /\ In (Printf (MsgVectorRow (c 3%nat - c 2%nat)
                     (speedup (c 1%nat - c 0%nat) (c 3%nat - c 2%nat))))
         trace.
Proof.
  intros Hok Hcsr Hbase Hvec.
  eexists. split; [by apply main_allocated_outcome|].
  unfold rdcycle64. rewrite Hcsr.
  rewrite !elapsed_cycles by done. cbn. tauto.
Qed.

Lemma main_cycle_counts_witness :
  exists trace,
    main host_rv64 = Some (trace, 0)
    /\ In (Printf (MsgBaselineRow 5000)) trace
    /\ In (Printf (MsgVectorRow 5000 (speedup 5000 5000))) trace.
Proof.
  apply (main_cycle_counts host_rv64
           (fun k => 18446744073709540000 + 5000 * Z.of_nat k));
    try reflexivity; cbn; lia.
Defined.

(** X16. The kernel can be run in chunks: on arrays of [m + k] elements,
    one call on the first [m] elements of each array followed by one call
    on the [k] elements after them writes what a single call on the
    [m + k] elements writes. *)
Theorem q15_axpy_baseline_chunks (a b y : list Z) (m k : nat) (alpha : Z) :
  length a = (m + k)%nat -> length b = (m + k)%nat ->
  length y = (m + k)%nat ->
  exists head tail,
    q15_axpy_baseline (take m a) (take m b) (take m y) m alpha = Some head
    /\ q15_axpy_baseline (drop m a) (drop m b) (drop m y) k alpha = Some tail
    /\ q15_axpy_baseline a b y (m + k) alpha = Some (head ++ tail).
Proof.
  intros Ha Hb Hy.
  destruct (q15_axpy_baseline_spec (take m a) (take m b) (take m y) m alpha)
    as (head & Hhead & Hlh & Hin_h & _);
    rewrite ?length_take; try lia.
  destruct (q15_axpy_baseline_spec (drop m a) (drop m b) (drop m y) k alpha)
    as (tail & Htail & Hlt & Hin_t & _);
    rewrite ?length_drop; try lia.
  destruct (q15_axpy_baseline_spec a b y (m + k) alpha)
    as (out & Hout & Hlo & Hin_o & _); try lia.
  rewrite length_take in Hlh. rewrite length_drop in Hlt.
  exists head, tail. split; [exact Hhead|]. split; [exact Htail|].
  rewrite Hout. f_equal. apply list_eq. intros i.
  destruct (decide (i < m + k)%nat) as [Hi|Hi].
  - destruct (lookup_lt_is_Some_2 a i) as [a_i Hai]; [lia|].
    destruct (lookup_lt_is_Some_2 b i) as [b_i Hbi]; [lia|].
    rewrite (Hin_o i a_i b_i Hi Hai Hbi).
    destruct (decide (i < m)%nat) as [Him|Him].
    + rewrite lookup_app_l by lia. symmetry. apply Hin_h; [lia| |].
      * by rewrite lookup_take_lt.
      * by rewrite lookup_take_lt.
    + rewrite lookup_app_r by lia. symmetry. apply Hin_t; [lia| |].
      * rewrite lookup_drop, <- Hai. f_equal. lia.
      * rewrite lookup_drop, <- Hbi. f_equal. lia.
  - rewrite !lookup_ge_None_2; [done | |]; rewrite ?length_app; lia.
Qed.

Lemma q15_axpy_baseline_chunks_witness :
  exists head tail,
    q15_axpy_baseline (take 1 [1; 2; 3]) (take 1 [4; 5; 6]) (take 1 [0; 0; 0])
      1 16384 = Some head
    /\ q15_axpy_baseline (drop 1 [1; 2; 3]) (drop 1 [4; 5; 6])
         (drop 1 [0; 0; 0]) 2 16384 = Some tail
    /\ q15_axpy_baseline [1; 2; 3] [4; 5; 6] [0; 0; 0] (1 + 2) 16384
       = Some (head ++ tail).
Proof.
  apply (q15_axpy_baseline_chunks [1; 2; 3] [4; 5; 6] [0; 0; 0] 1 2 16384);
    reflexivity.
Defined.

(** X17. Rounding toward minus infinity is not symmetric: for an
    [int16_t] element [b[i]], a scale [alpha] from -32767 to 32767 and
    [a[i] = 0], the lane for [- alpha] is the opposite of the lane for
    [alpha] when [alpha * b[i]] is a multiple of 32768, and one less
    otherwise. *)
Theorem axpy_lane_negated_scale (b_i alpha : Z) :
  in_int16 b_i -> -32767 <= alpha <= 32767 ->
  axpy_lane 0 b_i (- alpha)
  = - axpy_lane 0 b_i alpha
    - (if decide ((alpha * b_i) mod 32768 = 0) then 0 else 1).
Proof.
  intros Hb Hal.
  rewrite !axpy_lane_exact by (unfold in_int16 in *; lia).
  rewrite !Z.add_0_l. rewrite Z.mul_opp_l.
  assert (Hprod : -32767 * 32768 <= alpha * b_i <= 32767 * 32768)
    by (unfold in_int16 in *; nia).
  assert (Hq : -32767 <= alpha * b_i / 32768 <= 32767).
  { split; [apply Z.div_le_lower_bound | apply Z.div_le_upper_bound]; lia. }
  assert (Hq' : -32767 <= - (alpha * b_i) / 32768 <= 32767).
  { split; [apply Z.div_le_lower_bound | apply Z.div_le_upper_bound]; lia. }
  rewrite !saturate_q15_in_range by (unfold in_int16; lia).
  clear Hq Hq' Hprod. case_decide; Z.div_mod_to_equations; lia.
Qed.

Lemma axpy_lane_negated_scale_witness :
  axpy_lane 0 3 (- 16384)
  = - axpy_lane 0 3 16384
    - (if decide ((16384 * 3) mod 32768 = 0) then 0 else 1).
Proof. apply (axpy_lane_negated_scale 3 16384); unfold in_int16; lia. Defined.

(** X18. Whenever the two readings around the optimized kernel are equal
    modulo 2^64, with or without cycle counter and whatever the count of
    the reference kernel, a run in which the allocations succeed prints,
    as speedup, an infinity or a NaN, and still returns 0. *)
Theorem main_zero_vector_cycles (p : platform) :
  all_allocated p = true ->
  to_uint64 (rdcycle64 p 3 - rdcycle64 p 2) = 0 ->
  exists trace ratio,
    main p = Some (trace, 0)
    /\ In (Printf (MsgVectorRow 0 ratio)) trace
    /\ is_finite ratio = false.
Proof.
  intros Hok Hzero.
  eexists _, (speedup (to_uint64 (rdcycle64 p 1 - rdcycle64 p 0)) 0).
  split; [by apply main_allocated_outcome|].
  rewrite Hzero. split; [cbn; tauto|]. apply speedup_zero_divisor.
Qed.

Lemma main_zero_vector_cycles_witness :
  exists trace ratio,
    main host_stalled_counter = Some (trace, 0)
    /\ In (Printf (MsgVectorRow 0 ratio)) trace
    /\ is_finite ratio = false.
Proof. apply (main_zero_vector_cycles host_stalled_counter); reflexivity. Defined.
